(** * The export script [setup.py]: a model and its properties

    The repository is one module-level Python script:

<<
    from ultralytics import YOLO           (line 4)
    model = YOLO("yolo26n.pt")             (line 7)
    model.export(format="onnx")            (line 10)
>>

    Everything the script does happens inside the external package, so the
    package is a parameter of the development: an arbitrary record of
    functions over an arbitrary world, which also see what the process was
    started with.  The script itself is embedded statement by statement in
    a state-and-exception monad that threads the module namespace, the
    world the package acts on, and a log of the calls that cross the
    boundary to the package. *)

From stdpp Require Import base strings gmap list.

Open Scope string_scope.

(** ** Python values that cross the boundary *)

(** The script only ever handles string literals and objects handed out by
    the package; the latter are opaque references. *)
Inductive value :=
| VNone
| VStr (s : string)
| VRef (id : positive).

#[global] Instance value_eq_dec : EqDecision value.
Proof. solve_decision. Defined.

(** What a call into the package does: it returns a value or raises an
    exception object. *)
Inductive answer :=
| Returns (v : value)
| Raises (e : value).

(** One entry of the call log: a plain call of an object or a call of a
    named method of an object, with the positional and keyword arguments
    as supplied at the call site. *)
Inductive Event :=
| ECall (callee : value) (args : list value) (kw : list (string * value))
| EMethod (receiver : value) (name : string)
          (args : list value) (kw : list (string * value)).

(** Exceptions that can reach the top of the module: an unbound name, raised
    by the interpreter, or an exception object raised while the package was
    imported or inside one of its routines. *)
Inductive exn :=
| NameError (name : string)
| Raised (e : value).

(** How the module ends: it ran to its end, after which the process exits
    with status 0, or an exception left it uncaught. *)
Inductive Outcome :=
| Exit0
| Uncaught (e : exn).

(** What a Python process is handed by its surroundings: the command line,
    the environment, the clock, a source of randomness and standard input.
    The script and the package's code run in the same process, so both can
    consult it. *)
Record Context := mkContext {
  ctx_argv : list string;
  ctx_environ : gmap string string;
  ctx_clock : Z;
  ctx_entropy : list Z;
  ctx_stdin : list string
}.

Definition with_argv_environ (argv : list string) (env : gmap string string)
    (c : Context) : Context :=
  {| ctx_argv := argv; ctx_environ := env; ctx_clock := ctx_clock c;
     ctx_entropy := ctx_entropy c; ctx_stdin := ctx_stdin c |}.

(** What a statement or expression comes to: a value, or an exception on
    its way up. *)
Inductive res (A : Type) :=
| Ok (a : A)
| Err (e : exn).
Arguments Ok {A} a.
Arguments Err {A} e.

Section Script.

(** Everything the package can read or change: the disk, its own heap of
    model objects, its console.  The script never looks inside. *)
Variable World : Type.

(** The package as it is found on the machine.

    [import_package] is what the import statement does before it binds the
    name: the interpreter looks for the package and runs its module code.
    That raises (the package is missing, its code fails, or it has no
    [YOLO]) or completes, and it can change the world on the way, for
    instance by writing a settings file.  [YOLO] is the class object the
    name is bound to once the import has completed.  [call] and
    [call_method] are what calling an object, or a method of an object,
    does.  All three run in the process and see its context. *)
Record Library := mkLibrary {
  YOLO : value;
  import_package : Context → World → option value * World;
  call : Context → value → list value → list (string * value) → World →
         answer * World;
  call_method : Context → value → string → list value →
                list (string * value) → World → answer * World
}.

(** ** The interpreter state and its monad *)

Record State := mkState {
  st_ctx : Context;
  st_globals : gmap string value;
  st_stdout : list string;
  st_world : World;
  st_calls : list Event
}.

Definition M (A : Type) : Type := State → res A * State.

#[global] Instance M_ret : MRet M := λ A a s, (Ok a, s).

(** Sequencing: the continuation runs only if the first part did not
    raise; an exception ends the computation with the state reached. *)
#[global] Instance M_bind : MBind M := λ A B k m s,
  match m s with
  | (Ok a, s') => k a s'
  | (Err e, s') => (Err e, s')
  end.

(** [name = v] at module level. *)
Definition store_name (name : string) (v : value) : M unit :=
  λ s, (Ok tt,
        {| st_ctx := st_ctx s; st_globals := <[name := v]> (st_globals s);
           st_stdout := st_stdout s; st_world := st_world s;
           st_calls := st_calls s |}).

(** Reading a module-level name; neither [YOLO] nor [model] is a builtin,
    so an unbound name is a [NameError]. *)
Definition load_name (name : string) : M value :=
  λ s, match st_globals s !! name with
       | Some v => (Ok v, s)
       | None => (Err (NameError name), s)
       end.

(** A call that leaves the script: it is logged, the package runs on the
    current world, in the context of the process, and what it raises is
    raised here as it is. *)
Definition external (ev : Event) (f : Context → World → answer * World)
    : M value :=
  λ s, let '(a, w') := f (st_ctx s) (st_world s) in
       let s' := {| st_ctx := st_ctx s; st_globals := st_globals s;
                    st_stdout := st_stdout s; st_world := w';
                    st_calls := st_calls s ++ [ev] |} in
       match a with
       | Returns v => (Ok v, s')
       | Raises e => (Err (Raised e), s')
       end.

Variable L : Library.

Definition call_function (f : value) (args : list value)
    (kw : list (string * value)) : M value :=
  external (ECall f args kw) (λ ctx, call L ctx f args kw).

(** Looking the method up on the object and calling it are both the
    package's doing; they are one step here. *)
Definition call_attr (o : value) (name : string) (args : list value)
    (kw : list (string * value)) : M value :=
  external (EMethod o name args kw) (λ ctx, call_method L ctx o name args kw).

(** ** The script, statement by statement *)

(** Line 4: [from ultralytics import YOLO].  The package is imported; if
    that raises, the statement raises the same and binds nothing; otherwise
    the name is bound to the class.  An import is not a call and is not
    logged. *)
Definition import_YOLO : M unit :=
  λ s, let '(r, w') := import_package L (st_ctx s) (st_world s) in
       let s' := {| st_ctx := st_ctx s; st_globals := st_globals s;
                    st_stdout := st_stdout s; st_world := w';
                    st_calls := st_calls s |} in
       match r with
       | Some e => (Err (Raised e), s')
       | None => store_name "YOLO" (YOLO L) s'
       end.

(** Line 7: [model = YOLO("yolo26n.pt")]. *)
Definition assign_model : M unit :=
  f ← load_name "YOLO";
  m ← call_function f [VStr "yolo26n.pt"] [];
  store_name "model" m.

(** Line 10: [model.export(format="onnx")], an expression statement. *)
Definition export_statement : M unit :=
  o ← load_name "model";
  call_attr o "export" [] [("format", VStr "onnx")];;
  mret tt.

Definition script : M unit :=
  import_YOLO ;; assign_model ;; export_statement.

(** ** Running a module *)

Definition initial (ctx : Context) (w : World) : State :=
  {| st_ctx := ctx; st_globals := ∅; st_stdout := []; st_world := w;
     st_calls := [] |}.

(** What can be seen of a run from outside the process. *)
Record Behaviour := mkBehaviour {
  outcome : Outcome;
  world : World;
  calls : list Event;
  stdout : list string
}.

Definition observe (r : res unit * State) : Behaviour :=
  {| outcome := match r.1 with Ok _ => Exit0 | Err e => Uncaught e end;
     world := st_world r.2;
     calls := st_calls r.2;
     stdout := st_stdout r.2 |}.

Definition run_script (ctx : Context) (w : World) : Behaviour :=
  observe (script (initial ctx w)).

(** The module namespace when the script ends. *)
Definition final_globals (ctx : Context) (w : World) : gmap string value :=
  st_globals (script (initial ctx w)).2.

(** ** The two calls, as the specification words them *)

Definition load_event : Event :=
  ECall (YOLO L) [VStr "yolo26n.pt"] [].

Definition export_event (m : value) : Event :=
  EMethod m "export" [] [("format", VStr "onnx")].

(** Load: given a checkpoint filename, construct a model object. *)
Definition load (ctx : Context) (filename : string) (w : World)
    : answer * World :=
  call L ctx (YOLO L) [VStr filename] [] w.

(** Export: given the model object and a format identifier, produce the
    artifact. *)
Definition export (ctx : Context) (m : value) (fmt : string) (w : World)
    : answer * World :=
  call_method L ctx m "export" [] [("format", VStr fmt)] w.

(** The sequential composition of the two calls, written out: load, and if
    it returned, export on what it returned, in the world it left. *)
Definition two_calls (ctx : Context) (w : World) : Behaviour :=
  match load ctx "yolo26n.pt" w with
  | (Raises e, w1) =>
      {| outcome := Uncaught (Raised e); world := w1;
         calls := [load_event]; stdout := [] |}
  | (Returns m, w1) =>
      match export ctx m "onnx" w1 with
      | (Raises e, w2) =>
          {| outcome := Uncaught (Raised e); world := w2;
             calls := [load_event; export_event m]; stdout := [] |}
      | (Returns _, w2) =>
          {| outcome := Exit0; world := w2;
             calls := [load_event; export_event m]; stdout := [] |}
      end
  end.

(** The namespace the two statements leave behind, the class being bound
    already. *)
Definition two_calls_globals (ctx : Context) (w : World)
    : gmap string value :=
  match load ctx "yolo26n.pt" w with
  | (Raises _, _) => {[ "YOLO" := YOLO L ]}
  | (Returns m, _) => <[ "model" := m ]> {[ "YOLO" := YOLO L ]}
  end.

End Script.

Arguments mkLibrary {World} _ _ _ _.
Arguments YOLO {World} _.
Arguments import_package {World} _ _ _.
Arguments call {World} _ _ _ _ _ _.
Arguments call_method {World} _ _ _ _ _ _ _.
Arguments mkBehaviour {World} _ _ _ _.
Arguments outcome {World} _.
Arguments world {World} _.
Arguments calls {World} _.
Arguments stdout {World} _.
Arguments run_script {World} L ctx w.
Arguments final_globals {World} L ctx w.
Arguments load_event {World} L.
Arguments load {World} L ctx filename w.
Arguments export {World} L ctx m fmt w.
Arguments two_calls {World} L ctx w.
Arguments two_calls_globals {World} L ctx w.

(** ** The package with the values its methods return relabelled *)

(** The same package, except that whatever a method call returns is passed
    through [f] before the caller sees it; what it raises and what it does
    to the world are kept. *)
Definition relabel_method_results {World} (f : value → value)
    (L : Library World) : Library World :=
  {| YOLO := YOLO L;
     import_package := import_package L;
     call := call L;
     call_method := λ ctx o name args kw w,
       match call_method L ctx o name args kw w with
       | (Returns v, w') => (Returns (f v), w')
       | (Raises e, w') => (Raises e, w')
       end |}.

(** ** Packages that do not look at the context *)

(** The package answers the same in two contexts. *)
Definition agree_on {World} (L : Library World) (ctx1 ctx2 : Context)
    : Prop :=
  (∀ w, import_package L ctx1 w = import_package L ctx2 w)
  ∧ (∀ f args kw w, call L ctx1 f args kw w = call L ctx2 f args kw w)
  ∧ (∀ o name args kw w,
       call_method L ctx1 o name args kw w
       = call_method L ctx2 o name args kw w).

(** The package's routines are fixed functions of their arguments and the
    world: the context has no say in what they answer. *)
Definition context_blind {World} (L : Library World) : Prop :=
  ∀ ctx1 ctx2, agree_on L ctx1 ctx2.

(** ** What the package promises *)

(** The contract of the routines is the package's own; it is stated over
    three notions the package defines: which file contents are a
    checkpoint, which values are model objects, and which file contents are
    in a given interchange format. *)
Record Contract (World : Type) := mkContract {
  is_checkpoint : string → Prop;
  is_model : value → World → Prop;
  in_format : string → string → Prop
}.
Arguments is_checkpoint {World} _ _.
Arguments is_model {World} _ _ _.
Arguments in_format {World} _ _ _.

Section Contracts.

Context {World : Type}.

(** The disk of a world: file name to contents. *)
Variable files : World → gmap string string.
Variable C : Contract World.
Variable L : Library World.

(** Importing the package, when it completes, leaves the checkpoints on
    disk as they were. *)
Definition import_post : Prop :=
  ∀ ctx w w0 name c,
    import_package L ctx w = (None, w0) →
    files w !! name = Some c → is_checkpoint C c →
    files w0 !! name = Some c.

(** Load, when it returns on a file that holds a checkpoint, returns a
    model object. *)
Definition load_post : Prop :=
  ∀ ctx name w c m w1,
    files w !! name = Some c → is_checkpoint C c →
    load L ctx name w = (Returns m, w1) → is_model C m w1.

(** Export, when it returns on a model object, returns the name of a file
    that is then on disk, is not empty and is in the format asked for. *)
Definition export_post : Prop :=
  ∀ ctx m fmt w r w2,
    is_model C m w → export L ctx m fmt w = (Returns r, w2) →
    ∃ p c, r = VStr p ∧ files w2 !! p = Some c ∧ c ≠ "" ∧ in_format C fmt c.

(** The stronger promises that the routines do return: the import, load on
    a checkpoint, and export to [onnx] on a model object. *)
Definition import_returns : Prop :=
  ∀ ctx w, ∃ w0, import_package L ctx w = (None, w0).

Definition load_returns : Prop :=
  ∀ ctx name w c,
    files w !! name = Some c → is_checkpoint C c →
    ∃ m w1, load L ctx name w = (Returns m, w1).

Definition export_returns : Prop :=
  ∀ ctx m w,
    is_model C m w → ∃ r w2, export L ctx m "onnx" w = (Returns r, w2).

End Contracts.

(** ** Failures of the two calls *)

(** One of the two calls raises in a run from world [w], the import having
    completed: the exception object, the world the failing call left
    behind, and the calls made up to and including the failing one. *)
Inductive library_failure {World} (L : Library World) (ctx : Context)
    (w : World) : value → World → list Event → Prop :=
| load_fails w0 e w1 :
    import_package L ctx w = (None, w0) →
    load L ctx "yolo26n.pt" w0 = (Raises e, w1) →
    library_failure L ctx w e w1 [load_event L]
| export_fails w0 m w1 e w2 :
    import_package L ctx w = (None, w0) →
    load L ctx "yolo26n.pt" w0 = (Returns m, w1) →
    export L ctx m "onnx" w1 = (Raises e, w2) →
    library_failure L ctx w e w2 [load_event L; export_event m].

(** ** A small package to run the script against *)

Module Demo.

(** The world is just the disk. *)
Abbreviation disk := (gmap string string).

Definition class_YOLO : value := VRef 1.
Definition the_model : value := VRef 2.

(** Writing the settings file unless there is one already. *)
Definition ensure_settings (path : string) (w : disk) : disk :=
  match w !! path with
  | Some _ => w
  | None => <[path := "{}"]> w
  end.

(** Importing the package when it is installed leaves a settings file in
    the working directory; when it is not, the import raises. *)
Definition demo_import (installed : bool) (ctx : Context) (w : disk)
    : option value * disk :=
  if installed then (None, ensure_settings "settings.json" w)
  else (Some (VStr "ModuleNotFoundError"), w).

(** The same, with the settings kept in the directory the environment
    names, if it names one. *)
Definition settings_path (ctx : Context) : string :=
  match ctx_environ ctx !! "YOLO_CONFIG_DIR" with
  | Some dir => dir +:+ "/settings.json"
  | None => "settings.json"
  end.

Definition env_import (ctx : Context) (w : disk) : option value * disk :=
  (None, ensure_settings (settings_path ctx) w).

(** Calling the class with one file name loads that file. *)
Definition demo_call (ctx : Context) (f : value) (args : list value)
    (kw : list (string * value)) (w : disk) : answer * disk :=
  match args, kw with
  | [VStr name], [] =>
      if decide (f = class_YOLO) then
        match w !! name with
        | Some c =>
            if decide (c = "checkpoint") then (Returns the_model, w)
            else (Raises (VStr "UnpicklingError"), w)
        | None => (Raises (VStr "FileNotFoundError"), w)
        end
      else (Raises (VStr "TypeError"), w)
  | _, _ => (Raises (VStr "TypeError"), w)
  end.

(** The only method is [export], the only format [onnx], and it needs the
    converter to be installed. *)
Definition demo_call_method (converter : bool) (ctx : Context) (o : value)
    (name : string) (args : list value) (kw : list (string * value))
    (w : disk) : answer * disk :=
  if decide (o = the_model ∧ name = "export" ∧ args = []
             ∧ kw = [("format", VStr "onnx")]) then
    if converter then
      (Returns (VStr "yolo26n.onnx"), <["yolo26n.onnx" := "onnx graph"]> w)
    else (Raises (VStr "ModuleNotFoundError"), w)
  else (Raises (VStr "ValueError"), w).

Definition package (converter : bool) : Library disk :=
  {| YOLO := class_YOLO;
     import_package := demo_import true;
     call := demo_call;
     call_method := demo_call_method converter |}.

(** The package is not installed. *)
Definition package_missing : Library disk :=
  {| YOLO := class_YOLO;
     import_package := demo_import false;
     call := demo_call;
     call_method := demo_call_method true |}.

(** The package reads the environment when it is imported. *)
Definition package_env : Library disk :=
  {| YOLO := class_YOLO;
     import_package := env_import;
     call := demo_call;
     call_method := demo_call_method true |}.

(** The same package with one more method, [train], which the script has
    no use for. *)
Definition package_with_train : Library disk :=
  {| YOLO := class_YOLO;
     import_package := demo_import true;
     call := demo_call;
     call_method := λ ctx o name args kw w,
       if decide (name = "train") then
         (Returns VNone, <["runs/train/weights.pt" := "checkpoint"]> w)
       else demo_call_method true ctx o name args kw w |}.

Definition contract : Contract disk :=
  {| is_checkpoint := λ c, c = "checkpoint";
     is_model := λ m _, m = the_model;
     in_format := λ fmt c, fmt = "onnx" ∧ c = "onnx graph" |}.

(** A disk that holds the checkpoint and one unrelated file. *)
Definition disk0 : disk :=
  <["yolo26n.pt" := "checkpoint"]> (<["notes.txt" := "keep"]> ∅).

(** The disk once the package has been imported. *)
Definition disk1 : disk := <["settings.json" := "{}"]> disk0.

Definition ctx0 : Context :=
  {| ctx_argv := ["setup.py"]; ctx_environ := ∅; ctx_clock := 0%Z;
     ctx_entropy := []; ctx_stdin := [] |}.

Definition ctx1 : Context :=
  {| ctx_argv := ["setup.py"; "--format"; "engine"];
     ctx_environ := {[ "YOLO_CONFIG_DIR" := "cfg" ]};
     ctx_clock := 1762214400%Z;
     ctx_entropy := [4%Z; 8%Z; 15%Z]; ctx_stdin := ["tflite"] |}.

End Demo.

(** * Properties *)

(** ** Unfolding the script *)

Section Unfolding.

Context {World : Type}.
Variable L : Library World.

(** The assignment of line 7 from a state in which [YOLO] is bound: one
    call, and the name [model] bound to what it returned. *)
Lemma assign_model_bound (s : State World) (f : value) :
  st_globals World s !! "YOLO" = Some f →
  assign_model World L s
  = match call L (st_ctx World s) f [VStr "yolo26n.pt"] []
            (st_world World s) with
    | (Returns m, w1) =>
        (Ok tt,
         {| st_ctx := st_ctx World s;
            st_globals := <["model" := m]> (st_globals World s);
            st_stdout := st_stdout World s; st_world := w1;
            st_calls := st_calls World s
                        ++ [ECall f [VStr "yolo26n.pt"] []] |})
    | (Raises e, w1) =>
        (Err (Raised e),
         {| st_ctx := st_ctx World s; st_globals := st_globals World s;
            st_stdout := st_stdout World s; st_world := w1;
            st_calls := st_calls World s
                        ++ [ECall f [VStr "yolo26n.pt"] []] |})
    end.
Proof.
  intros Hname.
  unfold assign_model, mbind, M_bind, load_name, call_function, external,
    store_name.
  rewrite Hname.
  by destruct (call L (st_ctx World s) f [VStr "yolo26n.pt"] []
                 (st_world World s)) as [[m|e] w1].
Qed.

(** Without the import the assignment would stop at the name. *)
Lemma assign_model_unbound (s : State World) :
  st_globals World s !! "YOLO" = None →
  assign_model World L s = (Err (NameError "YOLO"), s).
Proof.
  intros Hname. unfold assign_model, mbind, M_bind, load_name.
  by rewrite Hname.
Qed.

(** The expression statement of line 10 from a state in which [model] is
    bound: one method call, whose value goes nowhere. *)
Lemma export_statement_bound (s : State World) (o : value) :
  st_globals World s !! "model" = Some o →
  export_statement World L s
  = let s1 w2 :=
      {| st_ctx := st_ctx World s; st_globals := st_globals World s;
         st_stdout := st_stdout World s; st_world := w2;
         st_calls := st_calls World s
                     ++ [EMethod o "export" [] [("format", VStr "onnx")]] |}
    in
    match call_method L (st_ctx World s) o "export" []
            [("format", VStr "onnx")] (st_world World s) with
    | (Returns _, w2) => (Ok tt, s1 w2)
    | (Raises e, w2) => (Err (Raised e), s1 w2)
    end.
Proof.
  intros Hname.
  unfold export_statement, mbind, M_bind, load_name, call_attr, external,
    mret, M_ret.
  rewrite Hname.
  by destruct (call_method L (st_ctx World s) o "export" []
                 [("format", VStr "onnx")] (st_world World s))
    as [[r|e] w2].
Qed.

Lemma export_statement_unbound (s : State World) :
  st_globals World s !! "model" = None →
  export_statement World L s = (Err (NameError "model"), s).
Proof.
  intros Hname. unfold export_statement, mbind, M_bind, load_name.
  by rewrite Hname.
Qed.

Lemma bind_run {A B} (m : M World A) (k : A → M World B) (s : State World) :
  (m ≫= k) s = match m s with
               | (Ok a, s') => k a s'
               | (Err e, s') => (Err e, s')
               end.
Proof. reflexivity. Qed.

(** The three statements in a row, from the state a fresh process starts
    in: the result and the whole final state. *)
Lemma script_run (ctx : Context) (w : World) :
  script World L (initial World ctx w)
  = match import_package L ctx w with
    | (Some e, w0) => (Err (Raised e), mkState World ctx ∅ [] w0 [])
    | (None, w0) =>
        match load L ctx "yolo26n.pt" w0 with
        | (Raises e, w1) =>
            (Err (Raised e),
             mkState World ctx {["YOLO" := YOLO L]} [] w1 [load_event L])
        | (Returns m, w1) =>
            let globals := <["model" := m]> {["YOLO" := YOLO L]} in
            let log := [load_event L; export_event m] in
            match export L ctx m "onnx" w1 with
            | (Raises e, w2) =>
                (Err (Raised e), mkState World ctx globals [] w2 log)
            | (Returns _, w2) =>
                (Ok tt, mkState World ctx globals [] w2 log)
            end
        end
    end.
Proof.
  unfold script. rewrite bind_run.
  unfold import_YOLO, store_name, initial.
  cbn [st_ctx st_globals st_stdout st_world st_calls].
  destruct (import_package L ctx w) as [[e|] w0]; [done|].
  rewrite bind_run.
  rewrite (assign_model_bound _ (YOLO L)) by apply lookup_insert_eq.
  unfold load, export, load_event, export_event.
  cbn [st_ctx st_globals st_stdout st_world st_calls app].
  destruct (call L ctx (YOLO L) [VStr "yolo26n.pt"] [] w0) as [[m|e] w1];
    [|done].
  rewrite (export_statement_bound _ m) by apply lookup_insert_eq.
  cbn [st_ctx st_globals st_stdout st_world st_calls app].
  by destruct (call_method L ctx m "export" [] [("format", VStr "onnx")] w1)
    as [[r|e] w2].
Qed.

(** The run: the import, and if it completed, the two calls in the world
    it left. *)
Lemma run_script_eq (ctx : Context) (w : World) :
  run_script L ctx w
  = match import_package L ctx w with
    | (Some e, w0) =>
        {| outcome := Uncaught (Raised e); world := w0; calls := [];
           stdout := [] |}
    | (None, w0) => two_calls L ctx w0
    end.
Proof.
  unfold run_script. rewrite script_run. unfold two_calls.
  destruct (import_package L ctx w) as [[e|] w0]; [done|].
  destruct (load L ctx "yolo26n.pt" w0) as [[m|e] w1]; [|done].
  by destruct (export L ctx m "onnx" w1) as [[r|e] w2].
Qed.

Lemma final_globals_eq (ctx : Context) (w : World) :
  final_globals L ctx w
  = match import_package L ctx w with
    | (Some _, _) => ∅
    | (None, w0) => two_calls_globals L ctx w0
    end.
Proof.
  unfold final_globals. rewrite script_run. unfold two_calls_globals.
  destruct (import_package L ctx w) as [[e|] w0]; [done|].
  destruct (load L ctx "yolo26n.pt" w0) as [[m|e] w1]; [|done].
  by destruct (export L ctx m "onnx" w1) as [[r|e] w2].
Qed.

Lemma run_script_imported (ctx : Context) (w w0 : World) :
  import_package L ctx w = (None, w0) →
  run_script L ctx w = two_calls L ctx w0
  ∧ final_globals L ctx w = two_calls_globals L ctx w0.
Proof. intros Himport. by rewrite run_script_eq, final_globals_eq, Himport. Qed.

(** The script never raises an exception of its own: both names it reads
    were bound by the statement before. *)
Lemma no_NameError (ctx : Context) (w : World) (name : string) :
  outcome (run_script L ctx w) ≠ Uncaught (NameError name).
Proof.
  rewrite run_script_eq. unfold two_calls.
  destruct (import_package L ctx w) as [[e|] w0]; [done|].
  destruct (load L ctx "yolo26n.pt" w0) as [[m|e] w1]; [|done].
  by destruct (export L ctx m "onnx" w1) as [[r|e] w2].
Qed.

End Unfolding.

(** A run is decided by what the package answers at the import, at the load
    call and at the export call of that run, and by nothing else of the
    package or of the context. *)
Lemma run_determined_by_answers {World} (L1 L2 : Library World)
    (ctx1 ctx2 : Context) (w : World) :
  YOLO L1 = YOLO L2 →
  import_package L1 ctx1 w = import_package L2 ctx2 w →
  (∀ w0, import_package L1 ctx1 w = (None, w0) →
         load L1 ctx1 "yolo26n.pt" w0 = load L2 ctx2 "yolo26n.pt" w0) →
  (∀ w0 m w1, import_package L1 ctx1 w = (None, w0) →
              load L1 ctx1 "yolo26n.pt" w0 = (Returns m, w1) →
              export L1 ctx1 m "onnx" w1 = export L2 ctx2 m "onnx" w1) →
  run_script L1 ctx1 w = run_script L2 ctx2 w
  ∧ final_globals L1 ctx1 w = final_globals L2 ctx2 w.
Proof.
  intros Hclass Himport Hload Hexport.
  rewrite !run_script_eq, !final_globals_eq.
  unfold two_calls, two_calls_globals, load_event.
  rewrite <- Himport, <- Hclass.
  destruct (import_package L1 ctx1 w) as [[e|] w0]; [done|].
  rewrite <- (Hload w0 eq_refl).
  destruct (load L1 ctx1 "yolo26n.pt" w0) as [[m|e] w1] eqn:Hl; [|done].
  by rewrite <- (Hexport w0 m w1 eq_refl Hl).
Qed.

Lemma agree_on_run {World} (L : Library World) (ctx1 ctx2 : Context)
    (w : World) :
  agree_on L ctx1 ctx2 →
  run_script L ctx1 w = run_script L ctx2 w
  ∧ final_globals L ctx1 w = final_globals L ctx2 w.
Proof.
  intros (Himport & Hcall & Hmethod).
  apply run_determined_by_answers; [done|apply Himport|..].
  - intros w0 _. apply Hcall.
  - intros w0 m w1 _ _. apply Hmethod.
Qed.

Section Properties.

Context {World : Type}.
Variable L : Library World.

(** ** The script against the two calls *)

(** C1, as amended.  Every run starts with the import of line 4.  If the
    import raises, the run ends there with that exception, no call made
    and no name bound.  If it completes, the rest of the run is the
    sequential composition of the two calls in the world the import left:
    load on the hardcoded file name, then export, with the single format
    argument, on the very object load returned and in the world load left.
    Outcome, final world, call log and output coincide, and the only names
    the module ends up with are the imported class and the model. *)
Theorem script_is_import_then_two_calls (ctx : Context) (w : World) :
  run_script L ctx w
  = match import_package L ctx w with
    | (Some e, w0) =>
        {| outcome := Uncaught (Raised e); world := w0; calls := [];
           stdout := [] |}
    | (None, w0) => two_calls L ctx w0
    end
  ∧ final_globals L ctx w
    = match import_package L ctx w with
      | (Some _, _) => ∅
      | (None, w0) => two_calls_globals L ctx w0
      end.
Proof. split; [apply run_script_eq | apply final_globals_eq]. Qed.

(** ** Failures *)

(** C2. Whatever either call raises reaches the process boundary as it was
    raised and ends the run: the outcome is that uncaught exception, the
    world is the one the failing call left, and the call log stops at the
    failing call, made once.  When load raises, export is not in the log. *)
Theorem library_failure_propagates (ctx : Context) (w : World)
    (e : value) (w' : World) (evs : list Event) :
  library_failure L ctx w e w' evs →
  run_script L ctx w
  = {| outcome := Uncaught (Raised e); world := w'; calls := evs;
       stdout := [] |}.
Proof.
  intros Hfail. rewrite run_script_eq. unfold two_calls.
  destruct Hfail as [w0 e w1 Himport Hload
                    | w0 m w1 e w2 Himport Hload Hexport].
  - by rewrite Himport, Hload.
  - by rewrite Himport, Hload, Hexport.
Qed.

(** X1. Conversely, a run that ends in an uncaught exception ends in one
    that came out of the package: it was raised by the import, and then no
    call was made, or by one of the two calls.  The script raises nothing
    of its own, and the world and the call log are those the failing step
    left. *)
Lemma uncaught_is_package_failure (ctx : Context) (w : World) (x : exn) :
  outcome (run_script L ctx w) = Uncaught x →
  ∃ e, x = Raised e
       ∧ ((import_package L ctx w = (Some e, world (run_script L ctx w))
           ∧ calls (run_script L ctx w) = [])
          ∨ library_failure L ctx w e (world (run_script L ctx w))
              (calls (run_script L ctx w))).
Proof.
  rewrite run_script_eq. unfold two_calls.
  destruct (import_package L ctx w) as [[e|] w0] eqn:Himport.
  { intros [= <-]. exists e. split; [done|]. by left. }
  destruct (load L ctx "yolo26n.pt" w0) as [[m|e] w1] eqn:Hload.
  - destruct (export L ctx m "onnx" w1) as [[r|e] w2] eqn:Hexport; [done|].
    intros [= <-]. exists e. split; [done|]. right. by eapply export_fails.
  - intros [= <-]. exists e. split; [done|]. right. by eapply load_fails.
Qed.

(** X3. A run that reaches the end of the module imported the package and
    made both calls, and all three returned: export returned on the object
    load returned, in the world load left; the final world is the one
    export left, and the log holds exactly these two calls. *)
Lemma completed_all_returned (ctx : Context) (w : World) :
  outcome (run_script L ctx w) = Exit0 →
  ∃ w0 m w1 r w2,
    import_package L ctx w = (None, w0)
    ∧ load L ctx "yolo26n.pt" w0 = (Returns m, w1)
    ∧ export L ctx m "onnx" w1 = (Returns r, w2)
    ∧ world (run_script L ctx w) = w2
    ∧ calls (run_script L ctx w) = [load_event L; export_event m].
Proof.
  intros Hdone. rewrite run_script_eq in Hdone.
  destruct (import_package L ctx w) as [[e|] w0] eqn:Himport; [done|].
  unfold two_calls in Hdone.
  destruct (load L ctx "yolo26n.pt" w0) as [[m|e] w1] eqn:Hload; [|done].
  destruct (export L ctx m "onnx" w1) as [[r|e] w2] eqn:Hexport; [|done].
  exists w0, m, w1, r, w2.
  rewrite run_script_eq, Himport. unfold two_calls.
  by rewrite Hload, Hexport.
Qed.

(** ** The calls and their arguments *)

Lemma calls_eq (ctx : Context) (w : World) :
  calls (run_script L ctx w)
  = match import_package L ctx w with
    | (Some _, _) => []
    | (None, w0) =>
        load_event L :: match (load L ctx "yolo26n.pt" w0).1 with
                        | Returns m => [export_event m]
                        | Raises _ => []
                        end
    end.
Proof.
  rewrite run_script_eq. unfold two_calls.
  destruct (import_package L ctx w) as [[e|] w0]; [done|].
  destruct (load L ctx "yolo26n.pt" w0) as [[m|e] w1]; [|done].
  by destruct (export L ctx m "onnx" w1) as [[r|e] w2].
Qed.

(** C6. The script checks nothing itself.  Once the package is imported,
    whatever the world holds, the first thing that happens is the load
    call on the hardcoded file name; and whatever value load returns, the
    export call on that value with the hardcoded format follows. *)
Theorem no_validation (ctx : Context) (w w0 : World) :
  import_package L ctx w = (None, w0) →
  head (calls (run_script L ctx w)) = Some (load_event L)
  ∧ ∀ m w1, load L ctx "yolo26n.pt" w0 = (Returns m, w1) →
            calls (run_script L ctx w) = [load_event L; export_event m].
Proof.
  intros Himport. rewrite calls_eq, Himport. split; [done|].
  intros m w1 Hload. by rewrite Hload.
Qed.

(** C8. The two literals are ["yolo26n.pt"], the only positional argument
    of the call of the class, and ["onnx"], the value of the only keyword
    argument, [format], of the call of [export]; neither call gets any
    other argument.  These are all the calls of a run: none when the
    import raises, the first alone when load raises. *)
Theorem hardcoded_literals (ctx : Context) (w : World) :
  calls (run_script L ctx w)
  = match import_package L ctx w with
    | (Some _, _) => []
    | (None, w0) =>
        ECall (YOLO L) [VStr "yolo26n.pt"] []
        :: match (load L ctx "yolo26n.pt" w0).1 with
           | Returns m => [EMethod m "export" [] [("format", VStr "onnx")]]
           | Raises _ => []
           end
    end.
Proof. apply calls_eq. Qed.

End Properties.

(** C9. What export returns is dropped: relabelling the values the
    package's methods return changes neither the behaviour of the run nor
    the names the module holds at the end, which are the class and the
    model only; and the script prints nothing. *)
Theorem export_result_discarded {World} (L : Library World)
    (f : value → value) (ctx : Context) (w : World) :
  run_script (relabel_method_results f L) ctx w = run_script L ctx w
  ∧ final_globals (relabel_method_results f L) ctx w = final_globals L ctx w
  ∧ final_globals L ctx w
    = match import_package L ctx w with
      | (Some _, _) => ∅
      | (None, w0) =>
          match (load L ctx "yolo26n.pt" w0).1 with
          | Returns m => <["model" := m]> {["YOLO" := YOLO L]}
          | Raises _ => {["YOLO" := YOLO L]}
          end
      end
  ∧ stdout (run_script L ctx w) = [].
Proof.
  rewrite !run_script_eq, !final_globals_eq.
  unfold two_calls, two_calls_globals, load, export, load_event.
  cbn [relabel_method_results YOLO import_package call call_method].
  destruct (import_package L ctx w) as [[e|] w0]; [done|].
  destruct (call L ctx (YOLO L) [VStr "yolo26n.pt"] [] w0) as [[m|e] w1];
    cbn [fst]; [|done].
  by destruct (call_method L ctx m "export" [] [("format", VStr "onnx")] w1)
    as [[r|e] w2].
Qed.

(** ** Inputs the script does not read *)



(** X4. The script uses the package through the import and the two calls
    only.  Two packages that export the same class and answer the import,
    the load call and the export call of the run alike give the same run,
    however else they differ. *)
Theorem only_three_entry_points {World} (L1 L2 : Library World)
    (ctx : Context) (w : World) :
  YOLO L1 = YOLO L2 →
  import_package L1 ctx w = import_package L2 ctx w →
  (∀ w0, import_package L1 ctx w = (None, w0) →
         load L1 ctx "yolo26n.pt" w0 = load L2 ctx "yolo26n.pt" w0) →
  (∀ w0 m w1, import_package L1 ctx w = (None, w0) →
              load L1 ctx "yolo26n.pt" w0 = (Returns m, w1) →
              export L1 ctx m "onnx" w1 = export L2 ctx m "onnx" w1) →
  run_script L1 ctx w = run_script L2 ctx w
  ∧ final_globals L1 ctx w = final_globals L2 ctx w.
Proof. apply run_determined_by_answers. Qed.

(** ** The disk *)

Section Disk.

Context {World : Type}.
Variable files : World → gmap string string.
Variable L : Library World.



(** C5, as amended.  The script writes nothing itself: a file that the
    import, the load call and the export call of the run each leave as it
    was is at the end of the run as it was at the start.  So the disk
    changes only where the package changed it, at the import or in one of
    the two calls. *)
Theorem script_writes_nothing_itself (ctx : Context) (w : World)
    (p : string) :
  files (import_package L ctx w).2 !! p = files w !! p →
  (∀ w0, import_package L ctx w = (None, w0) →
         files (load L ctx "yolo26n.pt" w0).2 !! p = files w0 !! p) →
  (∀ w0 m w1, import_package L ctx w = (None, w0) →
              load L ctx "yolo26n.pt" w0 = (Returns m, w1) →
              files (export L ctx m "onnx" w1).2 !! p = files w1 !! p) →
  files (world (run_script L ctx w)) !! p = files w !! p.
Proof.
  intros Himport_keeps Hload_keeps Hexport_keeps.
  rewrite run_script_eq. unfold two_calls.
  destruct (import_package L ctx w) as [[e|] w0] eqn:Himport; [done|].
  specialize (Hload_keeps w0 eq_refl).
  destruct (load L ctx "yolo26n.pt" w0) as [[m|e] w1] eqn:Hload;
    cbn [world snd] in *; [|congruence].
  specialize (Hexport_keeps w0 m w1 eq_refl Hload).
  destruct (export L ctx m "onnx" w1) as [[r|e] w2]; cbn [world snd] in *;
    congruence.
Qed.

End Disk.

(** * The script run against the small package *)

(** Four runs: package, checkpoint and converter present; package missing;
    checkpoint missing; converter missing. *)
Example run_ok :
  outcome (run_script (Demo.package true) Demo.ctx0 Demo.disk0) = Exit0
  ∧ world (run_script (Demo.package true) Demo.ctx0 Demo.disk0)
    = <["yolo26n.onnx" := "onnx graph"]> Demo.disk1
  ∧ final_globals (Demo.package true) Demo.ctx0 Demo.disk0
    = <["model" := Demo.the_model]> {["YOLO" := Demo.class_YOLO]}.
Proof. by vm_compute. Qed.

Example run_no_package :
  run_script Demo.package_missing Demo.ctx0 Demo.disk0
  = {| outcome := Uncaught (Raised (VStr "ModuleNotFoundError"));
       world := Demo.disk0; calls := []; stdout := [] |}
  ∧ final_globals Demo.package_missing Demo.ctx0 Demo.disk0 = ∅.
Proof. by vm_compute. Qed.

Example run_no_checkpoint :
  outcome (run_script (Demo.package true) Demo.ctx1 ∅)
  = Uncaught (Raised (VStr "FileNotFoundError"))
  ∧ length (calls (run_script (Demo.package true) Demo.ctx1 ∅)) = 1.
Proof. by vm_compute. Qed.

Example run_no_converter :
  outcome (run_script (Demo.package false) Demo.ctx1 Demo.disk0)
  = Uncaught (Raised (VStr "ModuleNotFoundError"))
  ∧ length (calls (run_script (Demo.package false) Demo.ctx1 Demo.disk0)) = 2.
Proof. by vm_compute. Qed.

(** ** What the small package promises and keeps *)

Lemma ensure_settings_keeps (path name : string) (w : Demo.disk)
    (c : string) :
  w !! name = Some c → Demo.ensure_settings path w !! name = Some c.
Proof.
  intros Hfile. unfold Demo.ensure_settings.
  destruct (w !! path) eqn:Hpath; [done|].
  rewrite lookup_insert_ne; [done|]. intros ->. congruence.
Qed.

Lemma demo_import_post (converter : bool) :
  import_post (λ w : Demo.disk, w) Demo.contract (Demo.package converter).
Proof.
  intros ctx w w0 name c [= <-] Hfile _. by apply ensure_settings_keeps.
Qed.

Lemma demo_load_post (converter : bool) :
  load_post (λ w : Demo.disk, w) Demo.contract (Demo.package converter).
Proof.
  intros ctx name w c m w1 Hfile Hckpt. unfold load. cbn.
  rewrite decide_True by done. rewrite Hfile.
  cbn in Hckpt. rewrite decide_True by done.
  by intros [= <- <-].
Qed.

Lemma demo_export_post :
  export_post (λ w : Demo.disk, w) Demo.contract (Demo.package true).
Proof.
  intros ctx m fmt w r w2 Hmodel. unfold export. cbn.
  unfold Demo.demo_call_method. case_decide as Hargs; [|done].
  destruct Hargs as (_ & _ & _ & [= ->]).
  intros [= <- <-]. exists "yolo26n.onnx", "onnx graph".
  by rewrite lookup_insert_eq.
Qed.

Lemma demo_import_returns (converter : bool) :
  import_returns (Demo.package converter).
Proof. intros ctx w. by eexists. Qed.

Lemma demo_load_returns (converter : bool) :
  load_returns (λ w : Demo.disk, w) Demo.contract (Demo.package converter).
Proof.
  intros ctx name w c Hfile Hckpt. exists Demo.the_model, w.
  unfold load. cbn. rewrite decide_True by done. rewrite Hfile.
  cbn in Hckpt. by rewrite decide_True.
Qed.

Lemma demo_export_returns :
  export_returns Demo.contract (Demo.package true).
Proof.
  intros ctx m w Hmodel. cbn in Hmodel. subst m.
  eexists _, _. unfold export. cbn [call_method Demo.package].
  unfold Demo.demo_call_method. by rewrite decide_True.
Qed.

(** The small package does not look at the context. *)
Lemma demo_context_blind (converter : bool) :
  context_blind (Demo.package converter).
Proof. intros ctx1 ctx2. by repeat split. Qed.

(** ** C1: the import is part of the run *)

(** The package is missing: the run ends at the import with no call made,
    which is not what the composition of the two calls does. *)
Lemma missing_package_is_not_two_calls :
  run_script Demo.package_missing Demo.ctx0 Demo.disk0
  ≠ two_calls Demo.package_missing Demo.ctx0 Demo.disk0.
Proof.
  intros Heq. apply (f_equal calls) in Heq. vm_compute in Heq.
  discriminate Heq.
Qed.

(** ** C2 *)

(** A missing checkpoint: load raises, and that is how the run ends.  A
    missing converter: export raises, and that is how the run ends. *)
Lemma library_failure_propagates_witness :
  run_script (Demo.package true) Demo.ctx0 ∅
  = {| outcome := Uncaught (Raised (VStr "FileNotFoundError"));
       world := {["settings.json" := "{}"]};
       calls := [ECall Demo.class_YOLO [VStr "yolo26n.pt"] []];
       stdout := [] |}
  ∧ run_script (Demo.package false) Demo.ctx0 Demo.disk0
    = {| outcome := Uncaught (Raised (VStr "ModuleNotFoundError"));
         world := Demo.disk1;
         calls := [ECall Demo.class_YOLO [VStr "yolo26n.pt"] [];
                   EMethod Demo.the_model "export" []
                     [("format", VStr "onnx")]];
         stdout := [] |}.
Proof.
  split.
  - apply (library_failure_propagates (Demo.package true) Demo.ctx0 ∅).
    apply (load_fails (Demo.package true) Demo.ctx0 ∅
             {["settings.json" := "{}"]} (VStr "FileNotFoundError")
             {["settings.json" := "{}"]}).
    + vm_compute; reflexivity.
    + vm_compute; reflexivity.
  - apply (library_failure_propagates (Demo.package false) Demo.ctx0
             Demo.disk0).
    apply (export_fails (Demo.package false) Demo.ctx0 Demo.disk0
             Demo.disk1 Demo.the_model Demo.disk1
             (VStr "ModuleNotFoundError") Demo.disk1).
    + vm_compute; reflexivity.
    + vm_compute; reflexivity.
    + vm_compute; reflexivity.
Defined.

(** The run without the converter ended in an exception; it is the one
    export raised. *)
Lemma uncaught_is_package_failure_witness :
  ∃ e, Raised (VStr "ModuleNotFoundError") = Raised e
       ∧ ((import_package (Demo.package false) Demo.ctx0 Demo.disk0
           = (Some e,
              world (run_script (Demo.package false) Demo.ctx0 Demo.disk0))
           ∧ calls (run_script (Demo.package false) Demo.ctx0 Demo.disk0)
             = [])
          ∨ library_failure (Demo.package false) Demo.ctx0 Demo.disk0 e
              (world (run_script (Demo.package false) Demo.ctx0 Demo.disk0))
              (calls (run_script (Demo.package false) Demo.ctx0
                        Demo.disk0))).
Proof.
  apply (uncaught_is_package_failure (Demo.package false) Demo.ctx0
           Demo.disk0 (Raised (VStr "ModuleNotFoundError"))).
  vm_compute; reflexivity.
Defined.

(** ** C3 *)



(** The run with package, checkpoint and converter reached the end of the
    module, so the import and both calls returned. *)
Lemma completed_all_returned_witness :
  ∃ w0 m w1 r w2,
    import_package (Demo.package true) Demo.ctx0 Demo.disk0 = (None, w0)
    ∧ load (Demo.package true) Demo.ctx0 "yolo26n.pt" w0 = (Returns m, w1)
    ∧ export (Demo.package true) Demo.ctx0 m "onnx" w1 = (Returns r, w2)
    ∧ world (run_script (Demo.package true) Demo.ctx0 Demo.disk0) = w2
    ∧ calls (run_script (Demo.package true) Demo.ctx0 Demo.disk0)
      = [load_event (Demo.package true); export_event m].
Proof.
  apply (completed_all_returned (Demo.package true) Demo.ctx0 Demo.disk0).
  vm_compute; reflexivity.
Defined.

(** ** C4 and C10: the context *)




(** The package that reads the environment is not a fixed function of the
    world. *)
Example package_env_not_blind : ¬ context_blind Demo.package_env.
Proof.
  intros Hblind.
  destruct (Hblind Demo.ctx1 Demo.ctx0) as (Himport & _).
  specialize (Himport Demo.disk0).
  apply (f_equal (λ r, r.2 !! "cfg/settings.json")) in Himport.
  vm_compute in Himport. discriminate Himport.
Qed.

(** ** C5: the disk *)

(** The import leaves a settings file behind: after the run there is a
    file that was not there before, that is not the artifact, and that
    neither the load call nor the export call of the run touched. *)
Lemma import_writes_a_file :
  Demo.disk0 !! "settings.json" = None
  ∧ world (run_script (Demo.package true) Demo.ctx0 Demo.disk0)
    !! "settings.json" = Some "{}"
  ∧ import_package (Demo.package true) Demo.ctx0 Demo.disk0
    = (None, Demo.disk1)
  ∧ (load (Demo.package true) Demo.ctx0 "yolo26n.pt" Demo.disk1).2
    !! "settings.json" = Demo.disk1 !! "settings.json"
  ∧ load (Demo.package true) Demo.ctx0 "yolo26n.pt" Demo.disk1
    = (Returns Demo.the_model, Demo.disk1)
  ∧ (export (Demo.package true) Demo.ctx0 Demo.the_model "onnx"
       Demo.disk1).2 !! "settings.json" = Demo.disk1 !! "settings.json"
  ∧ (export (Demo.package true) Demo.ctx0 Demo.the_model "onnx"
       Demo.disk1).1 = Returns (VStr "yolo26n.onnx").
Proof. by vm_compute. Qed.

(** The unrelated file on disk is still there, unchanged, after the run
    that wrote the settings and the artifact. *)
Lemma script_writes_nothing_itself_witness :
  world (run_script (Demo.package true) Demo.ctx0 Demo.disk0) !! "notes.txt"
  = Demo.disk0 !! "notes.txt".
Proof.
  apply (script_writes_nothing_itself (λ w : Demo.disk, w)
           (Demo.package true) Demo.ctx0 Demo.disk0 "notes.txt").
  - vm_compute; reflexivity.
  - intros w0 Himport. vm_compute in Himport.
    injection Himport as <-. vm_compute; reflexivity.
  - intros w0 m w1 Himport Hload. vm_compute in Himport.
    injection Himport as <-. vm_compute in Hload.
    injection Hload as <- <-. vm_compute; reflexivity.
Defined.

(** ** C6 *)

(** The import completed and load returned, so export was called on what
    it returned. *)
Lemma no_validation_witness :
  calls (run_script (Demo.package true) Demo.ctx0 Demo.disk0)
  = [ECall Demo.class_YOLO [VStr "yolo26n.pt"] [];
     EMethod Demo.the_model "export" [] [("format", VStr "onnx")]].
Proof.
  assert (import_package (Demo.package true) Demo.ctx0 Demo.disk0
          = (None, Demo.disk1)) as Himport by (vm_compute; reflexivity).
  apply (proj2 (no_validation (Demo.package true) Demo.ctx0 Demo.disk0
                  Demo.disk1 Himport) Demo.the_model Demo.disk1).
  vm_compute; reflexivity.
Defined.

(** ** The entry points *)

(** The package with the extra method gives the same run: the script never
    calls [train]. *)
Lemma only_three_entry_points_witness :
  run_script (Demo.package true) Demo.ctx0 Demo.disk0
  = run_script Demo.package_with_train Demo.ctx0 Demo.disk0
  ∧ final_globals (Demo.package true) Demo.ctx0 Demo.disk0
    = final_globals Demo.package_with_train Demo.ctx0 Demo.disk0.
Proof.
  apply (only_three_entry_points (Demo.package true)
           Demo.package_with_train Demo.ctx0 Demo.disk0).
  - reflexivity.
  - reflexivity.
  - intros w0 Himport. reflexivity.
  - intros w0 m w1 Himport Hload. vm_compute in Himport.
    injection Himport as <-. vm_compute in Hload.
    injection Hload as <- <-. vm_compute; reflexivity.
Defined.

(** The two packages do differ on the method the script leaves alone. *)
Example packages_differ_on_train :
  (call_method (Demo.package true) Demo.ctx0 Demo.the_model "train" [] []
     Demo.disk0).1
  ≠ (call_method Demo.package_with_train Demo.ctx0 Demo.the_model "train"
       [] [] Demo.disk0).1.
Proof. by vm_compute. Qed.
